(** * Productivity AI Toolkit (src/app.py): session rate limiter, history
    log, dashboard aggregation and ROI calculator.

    The Streamlit page is modelled as a sequence of script reruns over a
    session store ([st.session_state]).  Each rerun handles at most one
    button press.  The store survives an exception raised in a rerun, so
    the monad below keeps the state reached at the point of the raise.
    The ROI calculator computes with numpy: int64 arithmetic, which wraps
    around modulo 2^64, is written out on [Z]; float64 values are Rocq's
    primitive IEEE-754 binary64 floats. *)

From Stdlib Require Import ZArith Floats.
From Stdlib Require Uint63.
From stdpp Require Import base gmap strings list.

Open Scope Z_scope.

(* ================================================================= *)
(** ** Values, records and errors *)

(** Cell values of a history record: strings, Python ints and the
    [datetime.now()] timestamp (an abstract instant). *)
Inductive value :=
| VStr (s : string)
| VInt (z : Z)
| VTime (t : Z).

Global Instance value_eq_dec : EqDecision value.
Proof. solve_decision. Defined.

(** A history entry is a Python dict with string keys. *)
Abbreviation record := (gmap string value).

(** Exceptions that the modelled code can raise. *)
Inductive py_error :=
| StreamlitSecretNotFoundError   (* reading [st.secrets] without a secrets file *)
| ServiceError            (* failure of the remote chat-completion call *)
| KeyError (k : string)
| TypeError.

Inductive result (A : Type) :=
| Ok (a : A)
| Err (e : py_error).
Arguments Ok {A} a.
Arguments Err {A} e.

Definition rbind {A B} (r : result A) (k : A -> result B) : result B :=
  match r with Ok a => k a | Err e => Err e end.

Notation "'let?' x := r 'in' k" := (rbind r (fun x => k))
  (at level 200, x name, r at level 100, k at level 200).

(* ================================================================= *)
(** ** Session state and the session monad *)

(** [st.session_state.ai_calls] and [st.session_state.history]. *)
Record session := mk_session {
  ai_calls : Z;
  history : list record
}.

(** A new visit: lines 28-32. *)
Definition init_session : session := mk_session 0 [].

(** Observable effects of a rerun besides the session store. *)
Inductive effect :=
| EWarning      (* st.warning: usage limit reached *)
| EAsk.         (* one outbound chat-completion request *)

Record outcome (A : Type) := mk_outcome {
  out_res : result A;
  out_state : session;
  out_log : list effect
}.
Arguments mk_outcome {A} _ _ _.
Arguments out_res {A} _.
Arguments out_state {A} _.
Arguments out_log {A} _.

(** State, error and output: an exception stops the computation but the
    mutations of [st.session_state] done before it remain. *)
Definition M (A : Type) := session -> outcome A.

Definition ret {A} (a : A) : M A := fun s => mk_outcome (Ok a) s [].

Definition bind {A B} (m : M A) (k : A -> M B) : M B :=
  fun s =>
    match m s with
    | mk_outcome (Ok a) s1 l1 =>
        match k a s1 with mk_outcome r s2 l2 => mk_outcome r s2 (l1 ++ l2) end
    | mk_outcome (Err e) s1 l1 => mk_outcome (Err e) s1 l1
    end.

Notation "x <- m ;; k" := (bind m (fun x => k))
  (at level 100, m at next level, right associativity).

Definition lift {A} (r : result A) : M A := fun s => mk_outcome r s [].

(* ================================================================= *)
(** ** Rate limiter: lines 34-41 *)

Definition MAX_CALLS : Z := 8.

Definition can_use_ai : M bool :=
  fun s =>
    if MAX_CALLS <=? ai_calls s then
      mk_outcome (Ok false) s [EWarning]
    else
      mk_outcome (Ok true) (mk_session (ai_calls s + 1) (history s)) [].

(** [n] consecutive calls of [can_use_ai]; the list of answers. *)
Fixpoint try_n (n : nat) : M (list bool) :=
  match n with
  | O => ret []
  | S n' => b <- can_use_ai ;; bs <- try_n n' ;; ret (b :: bs)
  end.

(* ================================================================= *)
(** ** Remote model call and history log: lines 43-68 *)

(** [ask_ai]: the prompt text is not modelled; [reply] is the answer of
    the remote service for this call, [None] when the call raises. *)
Definition ask_ai (reply : option string) : M string :=
  fun s =>
    match reply with
    | Some r => mk_outcome (Ok r) s [EAsk]
    | None => mk_outcome (Err ServiceError) s [EAsk]
    end.

(** [default_entry], with [now] standing for [datetime.now()]. *)
Definition default_entry (now : Z) : record :=
  list_to_map [("type", VStr ""); ("name", VStr ""); ("result", VStr "");
               ("time", VTime now); ("hours", VInt 0); ("savings", VInt 0)].

(** [default_entry.update(entry)]: the keys of [entry] win. *)
Definition save_entry (now : Z) (entry : record) : record :=
  entry ∪ default_entry now.

Definition save_history (now : Z) (entry : record) : M unit :=
  fun s =>
    mk_outcome (Ok tt)
      (mk_session (ai_calls s) (history s ++ [save_entry now entry])) [].

(* ================================================================= *)
(** ** ROI calculator: lines 84-102

    The "Hours per Week" column of the data editor holds numpy int64
    values; [df["Hours per Week"] * 4], [.sum()] and the products and
    difference with the Python ints of the number inputs are numpy int64
    operations, which wrap around modulo 2^64.  True division converts both
    operands to float64, and [* 100] is a float64 product. *)

Record task_row := mk_row {
  task : string;
  hours_per_week : Z;
  tool_used : string
}.

Fixpoint zsum (l : list Z) : Z :=
  match l with [] => 0 | x :: t => x + zsum t end.

(** The int64 value of an integer result: two's-complement wrap-around. *)
Definition wrap64 (z : Z) : Z := (z + 2^63) mod 2^64 - 2^63.

(** [Series.sum()] of an int64 column: numpy's [add.reduce], wrapping at
    each addition (the order of the additions does not change the result
    modulo 2^64). *)
Fixpoint int64_sum (l : list Z) : Z :=
  match l with [] => 0 | x :: t => wrap64 (x + int64_sum t) end.

(** [float(x)] of an int64 [x]: rounded to nearest, ties to even. *)
Definition int64_to_float (z : Z) : float :=
  if z =? - 2^63 then (- (PrimFloat.of_uint63 (Uint63.of_Z (2^62)) * 2))%float
  else if z <? 0 then (- PrimFloat.of_uint63 (Uint63.of_Z (- z)))%float
  else PrimFloat.of_uint63 (Uint63.of_Z z).

Record analysis := mk_analysis {
  monthly_hours : list Z;     (* df["Monthly Hours"] *)
  total_hours : Z;
  annual_hours : Z;
  annual_savings : Z;
  roi : float
}.

(** Lines 96-102.  With a zero build cost [roi] is the Python int [0],
    formatted as "0.0%" like the float [0.]. *)
Definition analyze (df : list task_row) (hourly_rate automation_cost : Z) : analysis :=
  let monthly := map (fun r => wrap64 (hours_per_week r * 4)) df in
  let total_hours := int64_sum monthly in
  let annual_hours := wrap64 (total_hours * 12) in
  let annual_savings := wrap64 (annual_hours * hourly_rate) in
  let roi :=
    if negb (automation_cost =? 0) then
      (int64_to_float (wrap64 (annual_savings - automation_cost))
         / int64_to_float automation_cost * 100)%float
    else 0%float in
  mk_analysis monthly total_hours annual_hours annual_savings roi.

(* ================================================================= *)
(** ** Feature handlers: lines 96-205 *)

Definition automation_entry (result : string) (total savings : Z) : record :=
  list_to_map [("type", VStr "Automation"); ("name", VStr "Task Analysis");
               ("result", VStr result); ("hours", VInt total);
               ("savings", VInt savings)].

Definition idea_entry (idea_name result : string) : record :=
  list_to_map [("type", VStr "Idea"); ("name", VStr idea_name);
               ("result", VStr result)].

Definition meeting_entry (topic result : string) : record :=
  list_to_map [("type", VStr "Meeting"); ("name", VStr topic);
               ("result", VStr result)].

(** The button pressed in a rerun, with the form inputs it reads. *)
Inductive action :=
| Analyze (df : list task_row) (hourly_rate automation_cost : Z)
| EvaluateIdea (idea_name : string)
| EvaluateMeeting (topic : string)
| NoClick.

Definition analyze_handler (df : list task_row) (hourly_rate automation_cost : Z)
    (reply : option string) (now : Z) : M unit :=
  let a := analyze df hourly_rate automation_cost in
  ok <- can_use_ai ;;
  (if ok then
     result <- ask_ai reply ;;
     save_history now (automation_entry result (total_hours a) (annual_savings a))
   else ret tt).

Definition idea_handler (idea_name : string) (reply : option string) (now : Z)
  : M unit :=
  ok <- can_use_ai ;;
  (if ok then
     result <- ask_ai reply ;;
     save_history now (idea_entry idea_name result)
   else ret tt).

Definition meeting_handler (topic : string) (reply : option string) (now : Z)
  : M unit :=
  ok <- can_use_ai ;;
  (if ok then
     result <- ask_ai reply ;;
     save_history now (meeting_entry topic result)
   else ret tt).

(** One script rerun. *)
Record event := mk_event {
  ev_action : action;
  ev_reply : option string;   (* what the remote service answers, if asked *)
  ev_now : Z
}.

Definition rerun (ev : event) : M unit :=
  match ev_action ev with
  | Analyze df rate cost => analyze_handler df rate cost (ev_reply ev) (ev_now ev)
  | EvaluateIdea n => idea_handler n (ev_reply ev) (ev_now ev)
  | EvaluateMeeting t => meeting_handler t (ev_reply ev) (ev_now ev)
  | NoClick => ret tt
  end.

(** Session states reachable from a new visit; an exception ends the rerun
    and the store keeps what was written before it. *)
Inductive reachable : session -> Prop :=
| reach_init : reachable init_session
| reach_rerun s ev : reachable s -> reachable (out_state (rerun ev s)).

(* ================================================================= *)
(** ** Dashboard: lines 213-233 *)

(** [hist_df[k]] of [pd.DataFrame(history)]: the column exists when some
    record has the key; a record without it holds NaN ([None]). *)
Definition column (h : list record) (k : string) : result (list (option value)) :=
  if existsb (fun r : record => bool_decide (is_Some (r !! k))) h
  then Ok (map (fun r : record => r !! k) h)
  else Err (KeyError k).

(** [cell == t] for a string [t]. *)
Definition eq_str (t : string) (c : option value) : bool :=
  match c with Some (VStr s) => bool_decide (s = t) | _ => false end.

(** [hist_df.loc[mask, col].sum()]: NaN is skipped; the cells are int64
    and their sum wraps around like [int64_sum]. *)
Fixpoint masked_sum (mask : list bool) (col : list (option value)) : result Z :=
  match mask, col with
  | b :: mask', c :: col' =>
      let? rest := masked_sum mask' col' in
      if b then
        match c with
        | Some (VInt z) => Ok (wrap64 (z + rest))
        | None => Ok rest
        | Some _ => Err TypeError
        end
      else Ok rest
  | _, _ => Ok 0
  end.

(** [value_counts()]: one count per distinct non-NaN value.  Pandas orders
    the bars by count; only the count of each value is modelled. *)
Fixpoint vc_insert (v : value) (l : list (value * nat)) : list (value * nat) :=
  match l with
  | [] => [(v, 1%nat)]
  | (w, n) :: t => if decide (v = w) then (w, S n) :: t else (w, n) :: vc_insert v t
  end.

Fixpoint vc_go (acc : list (value * nat)) (col : list (option value)) :=
  match col with
  | [] => acc
  | Some v :: col' => vc_go (vc_insert v acc) col'
  | None :: col' => vc_go acc col'
  end.

Definition value_counts (col : list (option value)) : list (value * nat) :=
  vc_go [] col.

(** Height of the bar of [v]; no bar means zero. *)
Fixpoint vc_lookup (v : value) (l : list (value * nat)) : nat :=
  match l with
  | [] => 0
  | (w, n) :: t => if decide (v = w) then n else vc_lookup v t
  end.

Record metrics := mk_metrics {
  total_evaluations : nat;
  ideas_reviewed : nat;
  meetings_checked : nat;
  auto_hours : Z;
  auto_savings : Z;
  type_counts : list (value * nat)
}.

(** [None]: the "No activity yet" message instead of metrics. *)
Definition dashboard (h : list record) : result (option metrics) :=
  match h with
  | [] => Ok None
  | _ =>
      let? types := column h "type" in
      let ideas := length (List.filter (eq_str "Idea") types) in
      let meetings := length (List.filter (eq_str "Meeting") types) in
      let is_auto := map (eq_str "Automation") types in
      let? hours := column h "hours" in
      let? hs := masked_sum is_auto hours in
      let? savings := column h "savings" in
      let? sv := masked_sum is_auto savings in
      Ok (Some (mk_metrics (length h) ideas meetings hs sv (value_counts types)))
  end.

(* ================================================================= *)
(** ** Histories built by the feature handlers *)

(** What a successful feature handler passes to [save_history]. *)
Inductive interaction :=
| IAutomation (result : string) (hours savings : Z)
| IIdea (idea_name result : string)
| IMeeting (topic result : string).

Definition entry_of (i : interaction) : record :=
  match i with
  | IAutomation r h sv => automation_entry r h sv
  | IIdea n r => idea_entry n r
  | IMeeting t r => meeting_entry t r
  end.

Inductive kind := KAutomation | KIdea | KMeeting.

Global Instance kind_eq_dec : EqDecision kind.
Proof. solve_decision. Defined.

Definition kind_of (i : interaction) : kind :=
  match i with IAutomation _ _ _ => KAutomation | IIdea _ _ => KIdea | IMeeting _ _ => KMeeting end.

Definition kind_name (k : kind) : string :=
  match k with KAutomation => "Automation" | KIdea => "Idea" | KMeeting => "Meeting" end.

Definition count_kind (k : kind) (es : list (Z * interaction)) : nat :=
  length (List.filter (fun p => bool_decide (kind_of p.2 = k)) es).

(** The hours and savings of the Automation interactions, in order. *)
Definition automation_hours (es : list (Z * interaction)) : list Z :=
  flat_map (fun p => match p.2 with IAutomation _ h _ => [h] | _ => [] end) es.

Definition automation_savings (es : list (Z * interaction)) : list Z :=
  flat_map (fun p => match p.2 with IAutomation _ _ sv => [sv] | _ => [] end) es.

(** A sequence of [save_history now entry] calls. *)
Fixpoint save_all (es : list (Z * record)) : M unit :=
  match es with
  | [] => ret tt
  | (now, e) :: t => _ <- save_history now e ;; save_all t
  end.

Definition entry_keys : list string :=
  ["type"; "name"; "result"; "time"; "hours"; "savings"].

(** The zero metrics the spec expects on an empty history. *)
Definition zero_metrics : metrics := mk_metrics 0 0 0 0 0 [].




(** What a handler guarded by [can_use_ai] does to the store; [mk] builds
    the entry from the model's reply. *)
Definition gated_outcome (reply : option string) (now : Z) (mk : string -> record)
    (s : session) : outcome unit :=
  if MAX_CALLS <=? ai_calls s then mk_outcome (Ok tt) s [EWarning]
  else
    match reply with
    | Some r =>
        mk_outcome (Ok tt)
          (mk_session (ai_calls s + 1) (history s ++ [save_entry now (mk r)])) [EAsk]
    | None => mk_outcome (Err ServiceError) (mk_session (ai_calls s + 1) (history s)) [EAsk]
    end.

Definition hours_of (i : interaction) : Z :=
  match i with IAutomation _ h _ => h | _ => 0 end.

Definition savings_of (i : interaction) : Z :=
  match i with IAutomation _ _ sv => sv | _ => 0 end.

Definition type_cells (es : list (Z * interaction)) : list (option value) :=
  map (fun p => Some (VStr (kind_name (kind_of p.2)))) es.


Definition saved (es : list (Z * interaction)) : list record :=
  map (fun p => save_entry p.1 (entry_of p.2)) es.

(** A session in which the same rerun happened [n] times. *)
Fixpoint repeat_rerun (n : nat) (ev : event) : session :=
  match n with
  | O => init_session
  | S n' => out_state (rerun ev (repeat_rerun n' ev))
  end.

Definition ev_idea : event := mk_event (EvaluateIdea "Shared inbox bot") (Some "Go ahead") 0.

Definition ev_meeting_fails : event := mk_event (EvaluateMeeting "Weekly sync") None 5.


(* ================================================================= *)
(** ** Whole page runs *)

(** Line 112: the "Significant automation opportunity" warning. *)
Definition shows_opportunity_warning (a : analysis) : bool :=
  40 <? total_hours a.

(** The dashboard tab, rendered from the current store. *)
Definition render_dashboard : M (option metrics) :=
  fun s => mk_outcome (dashboard (history s)) s [].

(** The app's secrets as line 16 finds them. *)
Inductive secrets :=
| NoSecretsFile        (* [st.secrets] raises when read *)
| SecretsWithoutKey
| SecretsWithKey.

(** How a run of the page ends after the title, description and role
    selector (lines 8-13, not modelled) have rendered. *)
Inductive page :=
| PageStopped                        (* [st.error] shown, then [st.stop()] *)
| PageRendered (dash : option metrics).

(** One run of the page script (lines 16-233).  The key check raises when
    there is no secrets file; without the key it shows the error and stops
    before the session store is touched (lines 16-18).  Otherwise the
    clicked handler runs and then the dashboard tab (lines 210-233) renders
    from the updated store; an exception in the handler ends the run before
    the dashboard. *)
Definition page_run (sec : secrets) (ev : event) : M page :=
  match sec with
  | NoSecretsFile => lift (Err StreamlitSecretNotFoundError)
  | SecretsWithoutKey => ret PageStopped
  | SecretsWithKey => _ <- rerun ev ;; d <- render_dashboard ;; ret (PageRendered d)
  end.

Definition is_ask (e : effect) : bool :=
  match e with EAsk => true | EWarning => false end.

(** A sequence of reruns: the final store and everything they emitted. *)
Fixpoint run_trace (evs : list event) (s : session) : session * list effect :=
  match evs with
  | [] => (s, [])
  | ev :: evs' =>
      let o := rerun ev s in
      let '(s', l) := run_trace evs' (out_state o) in
      (s', out_log o ++ l)
  end.

(** Total height of the bars of the type chart. *)
Fixpoint sum_counts (l : list (value * nat)) : nat :=
  match l with [] => 0 | (_, n) :: t => n + sum_counts t end.

(* ================================================================= *)
(** * Lemmas *)

Lemma can_use_ai_cases s :
  (ai_calls s < MAX_CALLS /\
   can_use_ai s = mk_outcome (Ok true) (mk_session (ai_calls s + 1) (history s)) []) \/
  (MAX_CALLS <= ai_calls s /\ can_use_ai s = mk_outcome (Ok false) s [EWarning]).
Proof.
  unfold can_use_ai. destruct (MAX_CALLS <=? ai_calls s) eqn:E.
  - right. apply Z.leb_le in E. auto.
  - left. apply Z.leb_gt in E. auto.
Qed.

Lemma try_n_S_state n s :
  out_state (try_n (S n) s) = out_state (try_n n (out_state (can_use_ai s))).
Proof.
  cbn [try_n]. unfold bind at 1.
  destruct (can_use_ai s) as [[b|e] s1 l1] eqn:E.
  - simpl. unfold bind. destruct (try_n n s1) as [[bs|e'] s2 l2]; reflexivity.
  - exfalso. destruct (can_use_ai_cases s) as [[_ H]|[_ H]]; congruence.
Qed.

Lemma try_n_calls n s :
  ai_calls s <= MAX_CALLS ->
  ai_calls (out_state (try_n n s)) = Z.min (ai_calls s + Z.of_nat n) MAX_CALLS.
Proof.
  revert s. induction n as [|n IH]; intros s Hs.
  - simpl. lia.
  - rewrite try_n_S_state.
    destruct (can_use_ai_cases s) as [[Hlt ->]|[Hge ->]]; simpl.
    + rewrite IH; simpl; lia.
    + rewrite IH; lia.
Qed.

(* ================================================================= *)
(** * Rate limiter *)

(** C1: [can_use_ai] returns true and adds one to [ai_calls] below
    [MAX_CALLS], and returns false with the store unchanged (only the
    warning is shown) at or above it; from a new session, [N] attempts leave
    [ai_calls = min(N, MAX_CALLS)], and an attempt after [MAX_CALLS] or more
    attempts is denied. *)
Theorem can_use_ai_quota :
  (forall s,
     (ai_calls s < MAX_CALLS /\
      can_use_ai s = mk_outcome (Ok true) (mk_session (ai_calls s + 1) (history s)) []) \/
     (MAX_CALLS <= ai_calls s /\ can_use_ai s = mk_outcome (Ok false) s [EWarning])) /\
  (forall h n,
     ai_calls (out_state (try_n n (mk_session 0 h))) = Z.min (Z.of_nat n) MAX_CALLS) /\
  (forall h k,
     let s := out_state (try_n (Z.to_nat MAX_CALLS + k) (mk_session 0 h)) in
     out_res (can_use_ai s) = Ok false /\ out_state (can_use_ai s) = s).
Proof.
  split; [exact can_use_ai_cases|]. split.
  - intros h n. rewrite try_n_calls; simpl; unfold MAX_CALLS; lia.
  - intros h k s.
    assert (Hs : ai_calls s = MAX_CALLS).
    { unfold s. rewrite try_n_calls; simpl; unfold MAX_CALLS; lia. }
    destruct (can_use_ai_cases s) as [[Hlt _]|[_ ->]]; [lia | auto].
Qed.

(** C8 (as stated, refuted): from a new session the sixth call is still
    granted, since [MAX_CALLS] is 8 and not 5. *)
Lemma sixth_call_granted :
  out_res (try_n 6 init_session) = Ok [true; true; true; true; true; true] /\
  ai_calls (out_state (try_n 6 init_session)) = 6.
Proof. split; reflexivity. Qed.

(** C8 (amended): with [MAX_CALLS = 8], eight consecutive calls of a new
    session are granted and use up the quota; the ninth is denied and leaves
    [ai_calls] at 8. *)
Theorem ninth_call_denied h :
  MAX_CALLS = 8 /\
  out_res (try_n 9 (mk_session 0 h)) =
    Ok [true; true; true; true; true; true; true; true; false] /\
  ai_calls (out_state (try_n 8 (mk_session 0 h))) = 8 /\
  ai_calls (out_state (try_n 9 (mk_session 0 h))) = 8.
Proof. repeat split; reflexivity. Qed.

Lemma reachable_repeat n ev : reachable (repeat_rerun n ev).
Proof. induction n; simpl; constructor; auto. Qed.

(* ================================================================= *)
(** * Reruns of the feature handlers *)

Lemma gated_handler_eq reply now (mk : string -> record) s :
  (ok <- can_use_ai ;;
   (if ok then result <- ask_ai reply ;; save_history now (mk result) else ret tt)) s
  = gated_outcome reply now mk s.
Proof.
  unfold bind, can_use_ai, gated_outcome.
  destruct (MAX_CALLS <=? ai_calls s); [reflexivity|].
  destruct reply; reflexivity.
Qed.

Lemma rerun_shape ev s :
  (ev_action ev = NoClick /\ rerun ev s = mk_outcome (Ok tt) s []) \/
  (ev_action ev <> NoClick /\
   exists mk, rerun ev s = gated_outcome (ev_reply ev) (ev_now ev) mk s).
Proof.
  destruct ev as [a reply now]. unfold rerun; simpl.
  destruct a as [df rate cost|n|t|]; [right; split; [discriminate|]..|left; auto].
  - set (an := analyze df rate cost).
    exists (fun r => automation_entry r (total_hours an) (annual_savings an)).
    exact (gated_handler_eq reply now _ s).
  - exists (idea_entry n). apply gated_handler_eq.
  - exists (meeting_entry t). apply gated_handler_eq.
Qed.

Lemma rerun_cases ev s :
  (out_state (rerun ev s) = s /\ ~ In EAsk (out_log (rerun ev s))) \/
  (ai_calls s < MAX_CALLS /\ out_log (rerun ev s) = [EAsk] /\
   ai_calls (out_state (rerun ev s)) = ai_calls s + 1 /\
   (history (out_state (rerun ev s)) = history s \/
    exists e, history (out_state (rerun ev s)) = history s ++ [e])).
Proof.
  destruct (rerun_shape ev s) as [[_ ->]|[_ [mk ->]]].
  - left. simpl. split; [reflexivity|]. intros [].
  - unfold gated_outcome. destruct (MAX_CALLS <=? ai_calls s) eqn:E.
    + left. simpl. split; [reflexivity|]. intros [H|[]]. discriminate.
    + right. apply Z.leb_gt in E. destruct (ev_reply ev) as [r|]; simpl.
      * repeat split; auto. right. eexists; reflexivity.
      * repeat split; auto.
Qed.

(** The store invariant: each entry of the history was preceded by a
    granted call, and the grants stay within [MAX_CALLS]. *)
Lemma reachable_inv s :
  reachable s ->
  Z.of_nat (length (history s)) <= ai_calls s /\ ai_calls s <= MAX_CALLS.
Proof.
  induction 1 as [|s ev _ [IH1 IH2]].
  - simpl. unfold MAX_CALLS. lia.
  - destruct (rerun_cases ev s) as [[-> _]|[Hlt [_ [Hc [Hh|[e Hh]]]]]].
    + auto.
    + rewrite Hc, Hh. lia.
    + rewrite Hc, Hh, length_app. simpl. lia.
Qed.

(** C2: in every reachable store [ai_calls <= MAX_CALLS]; a rerun sends a
    model request only after [can_use_ai] granted it (below the ceiling,
    [ai_calls] grows by one), so at the ceiling no request is sent. *)
Theorem ai_calls_bounded s (Hr : reachable s) :
  ai_calls s <= MAX_CALLS /\
  forall ev,
    (In EAsk (out_log (rerun ev s)) ->
       ai_calls s < MAX_CALLS /\ ai_calls (out_state (rerun ev s)) = ai_calls s + 1) /\
    (ai_calls s = MAX_CALLS ->
       ~ In EAsk (out_log (rerun ev s)) /\ out_state (rerun ev s) = s).
Proof.
  destruct (reachable_inv s Hr) as [_ Hb]. split; [exact Hb|].
  intros ev. destruct (rerun_cases ev s) as [[Hs Hn]|[Hlt [Hl [Hc _]]]].
  - split; [intros H; contradiction|auto].
  - split; [auto|]. intros Heq. lia.
Qed.

(** C9: in every reachable store the history holds at most [MAX_CALLS]
    entries. *)
Theorem history_bounded s (Hr : reachable s) :
  Z.of_nat (length (history s)) <= MAX_CALLS.
Proof. destruct (reachable_inv s Hr). lia. Qed.

(** C10: when the model call raises after a granted [can_use_ai], the
    rerun ends in [ServiceError] with [ai_calls] one higher and the history
    unchanged; from a reachable store [ai_calls] then exceeds the history
    length. *)
Theorem failed_call_keeps_quota ev s
    (Hact : ev_action ev <> NoClick) (Hrep : ev_reply ev = None)
    (Hq : ai_calls s < MAX_CALLS) :
  rerun ev s = mk_outcome (Err ServiceError) (mk_session (ai_calls s + 1) (history s)) [EAsk] /\
  (reachable s ->
     Z.of_nat (length (history (out_state (rerun ev s)))) < ai_calls (out_state (rerun ev s))).
Proof.
  assert (He : rerun ev s =
          mk_outcome (Err ServiceError) (mk_session (ai_calls s + 1) (history s)) [EAsk]).
  { destruct (rerun_shape ev s) as [[Hn _]|[_ [mk ->]]]; [contradiction|].
    unfold gated_outcome. rewrite Hrep.
    destruct (MAX_CALLS <=? ai_calls s) eqn:E; [apply Z.leb_le in E; lia|reflexivity]. }
  split; [exact He|]. intros Hr. rewrite He. simpl.
  destruct (reachable_inv s Hr). lia.
Qed.

(* ================================================================= *)
(** * ROI calculator *)

Lemma wrap64_small z : - 2^63 <= z < 2^63 -> wrap64 z = z.
Proof. intros H. unfold wrap64. rewrite Z.mod_small; lia. Qed.

Lemma wrap64_add_r a b : wrap64 (a + wrap64 b) = wrap64 (a + b).
Proof.
  unfold wrap64.
  replace (a + ((b + 2^63) mod 2^64 - 2^63) + 2^63) with (a + (b + 2^63) mod 2^64) by ring.
  rewrite Zplus_mod_idemp_r. do 2 f_equal. ring.
Qed.

Lemma zsum_map_mul4 (df : list task_row) :
  zsum (map (fun r => hours_per_week r * 4) df) = 4 * zsum (map hours_per_week df).
Proof. induction df as [|r df IH]; simpl; lia. Qed.

Lemma zsum_hours_nonneg (df : list task_row) :
  Forall (fun r => 0 <= hours_per_week r) df -> 0 <= zsum (map hours_per_week df).
Proof. induction 1; simpl; lia. Qed.

(** Without overflow, the int64 sum of the monthly hours is the exact one. *)
Lemma monthly_sum_exact (df : list task_row) :
  Forall (fun r => 0 <= hours_per_week r) df ->
  4 * zsum (map hours_per_week df) < 2^63 ->
  int64_sum (map (fun r => wrap64 (hours_per_week r * 4)) df) =
  zsum (map (fun r => hours_per_week r * 4) df).
Proof.
  induction 1 as [|r df Hr Hdf IH]; intros Hb; [reflexivity|].
  cbn [map int64_sum zsum] in *.
  pose proof (zsum_hours_nonneg df Hdf) as Hn.
  rewrite IH by lia. rewrite (wrap64_small (hours_per_week r * 4)) by lia.
  apply wrap64_small. rewrite zsum_map_mul4. lia.
Qed.



(** C7: with build cost 0 the ROI is 0 and no division is performed; the
    guarded division would give no number at all: numpy's float64 division
    by zero yields an infinity or NaN. *)
Theorem roi_zero_cost df hourly_rate :
  roi (analyze df hourly_rate 0) = 0%float /\
  forall x,
    Prim2SF (int64_to_float x / int64_to_float 0)%float = S754_nan \/
    exists sg, Prim2SF (int64_to_float x / int64_to_float 0)%float = S754_infinity sg.
Proof.
  split; [reflexivity|]. intros x.
  rewrite FloatAxioms.div_spec. change (Prim2SF (int64_to_float 0)) with (S754_zero false).
  destruct (Prim2SF (int64_to_float x)) as [sg|sg| |sg m e]; simpl; eauto.
Qed.

(* ================================================================= *)
(** * History records and the dashboard *)

Lemma bind_ok_state {A B} (m : M A) (k : A -> M B) s a s1 l1 :
  m s = mk_outcome (Ok a) s1 l1 -> out_state (bind m k s) = out_state (k a s1).
Proof. intros H. unfold bind. rewrite H. destruct (k a s1); reflexivity. Qed.

Lemma save_all_history (es : list (Z * record)) s :
  history (out_state (save_all es s)) =
  history s ++ map (fun p => save_entry p.1 p.2) es.
Proof.
  revert s. induction es as [|[now e] t IH]; intros s; simpl.
  - by rewrite app_nil_r.
  - erewrite bind_ok_state by reflexivity.
    rewrite IH. simpl. by rewrite <- app_assoc.
Qed.

Lemma save_entry_lookup now (entry : record) k :
  save_entry now entry !! k =
  match entry !! k with Some v => Some v | None => default_entry now !! k end.
Proof.
  unfold save_entry. destruct (entry !! k) eqn:E.
  - rewrite lookup_union_l'; [exact E | by rewrite E].
  - by apply lookup_union_r.
Qed.

Lemma entry_type now i :
  save_entry now (entry_of i) !! "type" = Some (VStr (kind_name (kind_of i))).
Proof. destruct i; reflexivity. Qed.

Lemma entry_hours now i :
  save_entry now (entry_of i) !! "hours" = Some (VInt (hours_of i)).
Proof. destruct i; reflexivity. Qed.

Lemma entry_savings now i :
  save_entry now (entry_of i) !! "savings" = Some (VInt (savings_of i)).
Proof. destruct i; reflexivity. Qed.

Lemma column_cons (r : record) (t : list record) k :
  is_Some (r !! k) -> column (r :: t) k = Ok (map (fun r' : record => r' !! k) (r :: t)).
Proof. intros H. unfold column. simpl. by rewrite bool_decide_eq_true_2. Qed.

Lemma vc_lookup_insert v w l :
  vc_lookup v (vc_insert w l) = (vc_lookup v l + if decide (v = w) then 1 else 0)%nat.
Proof.
  induction l as [|[w' n] t IH]; simpl.
  - destruct (decide (v = w)); simpl; lia.
  - destruct (decide (w = w')) as [->|Hne]; simpl.
    + destruct (decide (v = w')); simpl; lia.
    + destruct (decide (v = w')) as [->|]; simpl.
      * destruct (decide (w' = w)); [congruence|lia].
      * exact IH.
Qed.

Lemma vc_lookup_go v acc col :
  vc_lookup v (vc_go acc col) =
  (vc_lookup v acc + length (List.filter (fun c => bool_decide (c = Some v)) col))%nat.
Proof.
  revert acc. induction col as [|[w|] col IH]; intros acc; simpl.
  - lia.
  - rewrite IH, vc_lookup_insert.
    destruct (decide (v = w)) as [->|Hne].
    + rewrite bool_decide_eq_true_2 by reflexivity. simpl. lia.
    + rewrite bool_decide_eq_false_2 by congruence. lia.
  - exact (IH acc).
Qed.

Lemma kind_name_eq k k' :
  bool_decide (Some (VStr (kind_name k')) = Some (VStr (kind_name k))) = bool_decide (k' = k).
Proof. destruct k, k'; reflexivity. Qed.

Lemma eq_str_kind k k' :
  eq_str (kind_name k) (Some (VStr (kind_name k'))) = bool_decide (k' = k).
Proof. destruct k, k'; reflexivity. Qed.

Lemma filter_type_cells k es :
  length (List.filter (eq_str (kind_name k)) (type_cells es)) = count_kind k es.
Proof.
  unfold count_kind, type_cells. induction es as [|p es IH]; [reflexivity|].
  cbn [map List.filter]. rewrite eq_str_kind.
  destruct (bool_decide (kind_of p.2 = k)); cbn [length]; auto.
Qed.

Lemma value_counts_type_cells k es :
  vc_lookup (VStr (kind_name k)) (value_counts (type_cells es)) = count_kind k es.
Proof.
  unfold value_counts. rewrite vc_lookup_go. cbn [vc_lookup Nat.add].
  unfold count_kind, type_cells. induction es as [|p es IH]; [reflexivity|].
  cbn [map List.filter]. rewrite kind_name_eq.
  destruct (bool_decide (kind_of p.2 = k)); cbn [length]; auto.
Qed.

Lemma masked_sum_hours es :
  masked_sum (map (eq_str "Automation") (type_cells es))
             (map (fun p => Some (VInt (hours_of p.2))) es) =
  Ok (wrap64 (zsum (automation_hours es))).
Proof.
  induction es as [|[now i] es IH]; simpl; [reflexivity|].
  rewrite IH. simpl. destruct i; simpl; [by rewrite wrap64_add_r|reflexivity..].
Qed.

Lemma masked_sum_savings es :
  masked_sum (map (eq_str "Automation") (type_cells es))
             (map (fun p => Some (VInt (savings_of p.2))) es) =
  Ok (wrap64 (zsum (automation_savings es))).
Proof.
  induction es as [|[now i] es IH]; simpl; [reflexivity|].
  rewrite IH. simpl. destruct i; simpl; [by rewrite wrap64_add_r|reflexivity..].
Qed.

Lemma masked_sum_no_key_error mask col :
  (exists z, masked_sum mask col = Ok z) \/ masked_sum mask col = Err TypeError.
Proof.
  revert col. induction mask as [|b mask IH]; intros [|c col]; simpl; eauto.
  destruct (IH col) as [[z ->]| ->]; simpl; auto.
  destruct b; eauto. destruct c as [[]|]; eauto.
Qed.


Lemma column_saved es k :
  es <> [] -> (forall now i, is_Some (save_entry now (entry_of i) !! k)) ->
  column (saved es) k = Ok (map (fun r : record => r !! k) (saved es)).
Proof.
  intros Hne Hk. destruct es as [|p es]; [congruence|].
  unfold column. cbn [saved map existsb].
  rewrite bool_decide_eq_true_2 by apply Hk. reflexivity.
Qed.

Lemma saved_types es : map (fun r : record => r !! "type") (saved es) = type_cells es.
Proof.
  unfold saved, type_cells. rewrite map_map. apply map_ext. intros. apply entry_type.
Qed.

Lemma saved_hours es :
  map (fun r : record => r !! "hours") (saved es) = map (fun p => Some (VInt (hours_of p.2))) es.
Proof. unfold saved. rewrite map_map. apply map_ext. intros. apply entry_hours. Qed.

Lemma saved_savings es :
  map (fun r : record => r !! "savings") (saved es) =
  map (fun p => Some (VInt (savings_of p.2))) es.
Proof. unfold saved. rewrite map_map. apply map_ext. intros. apply entry_savings. Qed.

(* ================================================================= *)
(** * Dashboard aggregation *)



(** C5 (as stated, refuted): on an empty history the dashboard returns no
    metrics, in particular not zero counts and zero sums. *)
Lemma empty_history_no_metrics :
  dashboard [] = Ok None /\ dashboard [] <> Ok (Some zero_metrics).
Proof. split; [reflexivity | discriminate]. Qed.

(** C5 (amended): on an empty history the dashboard computes no counts or
    sums and shows the "No activity yet" message instead, without error. *)
Theorem empty_history_dashboard :
  dashboard (history init_session) = Ok None /\
  forall m, dashboard (history init_session) <> Ok (Some m).
Proof. split; [reflexivity|]. intros m H. discriminate H. Qed.

Lemma dashboard_saved_entries (es : list (Z * record)) :
  dashboard (map (fun p => save_entry p.1 p.2) es) = Ok None \/
  dashboard (map (fun p => save_entry p.1 p.2) es) = Err TypeError \/
  exists m, dashboard (map (fun p => save_entry p.1 p.2) es) = Ok (Some m).
Proof.
  destruct es as [|[now e] es]; [left; reflexivity|].
  right. unfold dashboard. cbn [map].
  assert (Hk : forall k, In k entry_keys -> is_Some (save_entry now e !! k)).
  { intros k Hk. rewrite save_entry_lookup. destruct (e !! k); [eauto|].
    simpl in Hk. intuition subst; eauto. }
  cbv beta iota.
  rewrite column_cons by (apply Hk; simpl; intuition).
  cbv beta iota delta [rbind].
  rewrite column_cons by (apply Hk; simpl; intuition).
  cbv beta iota delta [rbind].
  match goal with |- context [masked_sum ?a ?b] =>
    destruct (masked_sum_no_key_error a b) as [[z ->]| ->]; [|left; reflexivity] end.
  cbv beta iota delta [rbind].
  rewrite column_cons by (apply Hk; simpl; intuition).
  cbv beta iota delta [rbind].
  match goal with |- context [masked_sum ?a ?b] =>
    destruct (masked_sum_no_key_error a b) as [[z' ->]| ->];
    [right; eexists; reflexivity|left; reflexivity] end.
Qed.

(** C6: [save_history] appends [default_entry.update(entry)], which has all
    six keys; a key missing from [entry] takes its default ([hours] and
    [savings] are 0); and the dashboard over any history made by
    [save_history] calls never raises [KeyError]. *)
Theorem save_history_defaults :
  (forall now (entry : record) s,
     history (out_state (save_history now entry s)) = history s ++ [save_entry now entry]) /\
  (forall now (entry : record) k, In k entry_keys -> is_Some (save_entry now entry !! k)) /\
  (forall now (entry : record) k,
     entry !! k = None -> save_entry now entry !! k = default_entry now !! k) /\
  (forall now, default_entry now !! "hours" = Some (VInt 0) /\
               default_entry now !! "savings" = Some (VInt 0)) /\
  (forall (es : list (Z * record)) k,
     dashboard (history (out_state (save_all es init_session))) <> Err (KeyError k)).
Proof.
  split; [reflexivity|]. split.
  { intros now entry k Hk. rewrite save_entry_lookup. destruct (entry !! k); [eauto|].
    simpl in Hk. intuition subst; eauto. }
  split.
  { intros now entry k H. rewrite save_entry_lookup, H. reflexivity. }
  split; [split; reflexivity|].
  intros es k. rewrite save_all_history. simpl.
  destruct (dashboard_saved_entries es) as [->|[->|[m ->]]]; discriminate.
Qed.

(* ================================================================= *)
(** * Instances of the theorems on concrete sessions *)

Lemma ai_calls_bounded_witness :
  ai_calls (repeat_rerun 8 ev_idea) = MAX_CALLS /\
  ~ In EAsk (out_log (rerun ev_idea (repeat_rerun 8 ev_idea))) /\
  out_state (rerun ev_idea (repeat_rerun 8 ev_idea)) = repeat_rerun 8 ev_idea.
Proof.
  destruct (ai_calls_bounded _ (reachable_repeat 8 ev_idea)) as [_ H].
  assert (E : ai_calls (repeat_rerun 8 ev_idea) = MAX_CALLS) by reflexivity.
  split; [exact E|]. exact (proj2 (H ev_idea) E).
Defined.



Lemma history_bounded_witness :
  Z.of_nat (length (history (repeat_rerun 9 ev_idea))) <= MAX_CALLS /\
  length (history (repeat_rerun 9 ev_idea)) = 8%nat.
Proof.
  split; [exact (history_bounded _ (reachable_repeat 9 ev_idea)) | reflexivity].
Defined.

Lemma failed_call_keeps_quota_witness :
  ev_action ev_meeting_fails <> NoClick /\ ev_reply ev_meeting_fails = None /\
  ai_calls init_session < MAX_CALLS /\
  rerun ev_meeting_fails init_session =
    mk_outcome (Err ServiceError) (mk_session 1 []) [EAsk] /\
  Z.of_nat (length (history (out_state (rerun ev_meeting_fails init_session)))) <
    ai_calls (out_state (rerun ev_meeting_fails init_session)).
Proof.
  destruct (failed_call_keeps_quota ev_meeting_fails init_session
              ltac:(discriminate) eq_refl eq_refl) as [H1 H2].
  split; [discriminate|]. split; [reflexivity|]. split; [reflexivity|].
  split; [exact H1 | exact (H2 reach_init)].
Defined.

(* ================================================================= *)
(** * Further properties of the page *)

(** X1: a rerun never removes or changes history entries: the old history
    is a prefix of the new one, which has at most one entry more. *)
Theorem history_append_only ev s :
  exists l, history (out_state (rerun ev s)) = history s ++ l /\ (length l <= 1)%nat.
Proof.
  destruct (rerun_cases ev s) as [[-> _]|[_ [_ [_ [Hh|[e Hh]]]]]].
  - exists []. rewrite app_nil_r. split; [reflexivity|simpl; lia].
  - exists []. rewrite app_nil_r. split; [exact Hh|simpl; lia].
  - exists [e]. split; [exact Hh|simpl; lia].
Qed.

(** X2: a rerun never lowers [ai_calls] and raises it by at most one; there
    is no reset within a session. *)
Theorem ai_calls_monotone ev s :
  ai_calls s <= ai_calls (out_state (rerun ev s)) <= ai_calls s + 1.
Proof.
  destruct (rerun_cases ev s) as [[-> _]|[_ [_ [-> _]]]]; lia.
Qed.

Lemma filter_is_ask_nil (l : list effect) :
  ~ In EAsk l -> List.filter is_ask l = [].
Proof.
  induction l as [|e l IH]; simpl; intros H; [reflexivity|].
  destruct e; simpl.
  - apply IH. intros Hi. apply H. right. exact Hi.
  - exfalso. apply H. left. reflexivity.
Qed.

(** X3: over any sequence of reruns, the number of model requests sent
    equals the growth of [ai_calls]; from a new session it equals the final
    [ai_calls]: every granted call is followed by exactly one request. *)
Theorem requests_match_quota (evs : list event) s :
  Z.of_nat (length (List.filter is_ask (snd (run_trace evs s)))) =
  ai_calls (fst (run_trace evs s)) - ai_calls s /\
  Z.of_nat (length (List.filter is_ask (snd (run_trace evs init_session)))) =
  ai_calls (fst (run_trace evs init_session)).
Proof.
  assert (G : forall s,
    Z.of_nat (length (List.filter is_ask (snd (run_trace evs s)))) =
    ai_calls (fst (run_trace evs s)) - ai_calls s).
  { induction evs as [|ev evs IH]; intros s0; simpl; [lia|].
    specialize (IH (out_state (rerun ev s0))).
    destruct (run_trace evs (out_state (rerun ev s0))) as [s' l] eqn:E. simpl in *.
    rewrite List.filter_app, length_app.
    destruct (rerun_cases ev s0) as [[Hs Hn]|[_ [Hl [Hc _]]]].
    - rewrite filter_is_ask_nil by exact Hn. rewrite Hs in IH. simpl. lia.
    - rewrite Hl. simpl. lia. }
  split; [apply G|]. rewrite G. simpl. lia.
Qed.

Lemma rerun_shape_entry ev s :
  (ev_action ev = NoClick /\ rerun ev s = mk_outcome (Ok tt) s []) \/
  (exists mk, rerun ev s = gated_outcome (ev_reply ev) (ev_now ev) mk s /\
              forall r, exists i, mk r = entry_of i).
Proof.
  destruct ev as [a reply now]. unfold rerun; simpl.
  destruct a as [df rate cost|n|t|]; [right..|left; auto].
  - set (an := analyze df rate cost).
    exists (fun r => automation_entry r (total_hours an) (annual_savings an)).
    split; [|intros r; exists (IAutomation r (total_hours an) (annual_savings an)); reflexivity].
    exact (gated_handler_eq reply now _ s).
  - exists (idea_entry n). split; [apply gated_handler_eq|].
    intros r. exists (IIdea n r). reflexivity.
  - exists (meeting_entry t). split; [apply gated_handler_eq|].
    intros r. exists (IMeeting t r). reflexivity.
Qed.

Lemma rerun_res ev s :
  out_res (rerun ev s) = Ok tt \/ out_res (rerun ev s) = Err ServiceError.
Proof.
  destruct (rerun_shape_entry ev s) as [[_ ->]|[mk [-> _]]]; [left; reflexivity|].
  unfold gated_outcome. destruct (MAX_CALLS <=? ai_calls s); [left; reflexivity|].
  destruct (ev_reply ev); [left|right]; reflexivity.
Qed.

Lemma reachable_saved s : reachable s -> exists es, history s = saved es.
Proof.
  induction 1 as [|s ev _ [es IH]]; [exists []; reflexivity|].
  destruct (rerun_shape_entry ev s) as [[_ ->]|[mk [-> Hmk]]]; [exists es; exact IH|].
  unfold gated_outcome. destruct (MAX_CALLS <=? ai_calls s); [exists es; exact IH|].
  destruct (ev_reply ev) as [r|]; simpl; [|exists es; exact IH].
  destruct (Hmk r) as [i Hi]. exists (es ++ [(ev_now ev, i)]).
  rewrite IH, Hi. unfold saved. rewrite map_app. reflexivity.
Qed.

Lemma dashboard_saved_eq p es :
  dashboard (saved (p :: es)) =
  Ok (Some (mk_metrics (length (p :: es)) (count_kind KIdea (p :: es))
              (count_kind KMeeting (p :: es)) (wrap64 (zsum (automation_hours (p :: es))))
              (wrap64 (zsum (automation_savings (p :: es))))
              (value_counts (type_cells (p :: es))))).
Proof.
  unfold dashboard.
  change (saved (p :: es)) with (save_entry p.1 (entry_of p.2) :: saved es).
  cbv beta iota.
  change (save_entry p.1 (entry_of p.2) :: saved es) with (saved (p :: es)).
  rewrite column_saved by (congruence || (intros; rewrite entry_type; eauto)).
  cbv beta iota delta [rbind]. rewrite saved_types.
  rewrite column_saved by (congruence || (intros; rewrite entry_hours; eauto)).
  cbv beta iota delta [rbind]. rewrite saved_hours, masked_sum_hours.
  rewrite column_saved by (congruence || (intros; rewrite entry_savings; eauto)).
  cbv beta iota delta [rbind]. rewrite saved_savings, masked_sum_savings.
  cbv beta iota zeta.
  do 2 f_equal. f_equal.
  - unfold saved. apply length_map.
  - exact (filter_type_cells KIdea (p :: es)).
  - exact (filter_type_cells KMeeting (p :: es)).
Qed.

Lemma dashboard_saved_ok es : exists d, dashboard (saved es) = Ok d.
Proof.
  destruct es as [|p es]; [eexists; reflexivity|].
  rewrite dashboard_saved_eq. eexists; reflexivity.
Qed.

Lemma count_kinds_length (es : list (Z * interaction)) :
  length es = (count_kind KAutomation es + count_kind KIdea es + count_kind KMeeting es)%nat.
Proof.
  unfold count_kind. induction es as [|p es IH]; [reflexivity|].
  cbn [List.filter]. destruct (kind_of p.2);
    repeat first [rewrite bool_decide_eq_true_2 by reflexivity | rewrite bool_decide_eq_false_2 by discriminate];
    cbn [length]; lia.
Qed.

Lemma sum_counts_insert v l : sum_counts (vc_insert v l) = S (sum_counts l).
Proof.
  induction l as [|[w n] t IH]; simpl; [lia|].
  destruct (decide (v = w)); simpl; lia.
Qed.

Lemma sum_counts_type_cells acc es :
  sum_counts (vc_go acc (type_cells es)) = (sum_counts acc + length es)%nat.
Proof.
  revert acc. induction es as [|p es IH]; intros acc; simpl; [lia|].
  rewrite IH, sum_counts_insert. lia.
Qed.


(** X5: in a reachable session with some history the dashboard always
    renders without error; its Total Evaluations equals Ideas Reviewed plus
    Meetings Checked plus the Automation bar, equals the total height of the
    type chart, and is at most [MAX_CALLS]. *)
Theorem reachable_dashboard s (Hr : reachable s) (Hne : history s <> []) :
  exists m,
    dashboard (history s) = Ok (Some m) /\
    total_evaluations m =
      (ideas_reviewed m + meetings_checked m + vc_lookup (VStr "Automation") (type_counts m))%nat /\
    sum_counts (type_counts m) = total_evaluations m /\
    Z.of_nat (total_evaluations m) <= MAX_CALLS.
Proof.
  destruct (reachable_inv s Hr) as [Hlen Hmax].
  destruct (reachable_saved s Hr) as [es Hes]. rewrite Hes in Hne, Hlen |- *.
  destruct es as [|p es]; [contradiction|].
  rewrite dashboard_saved_eq. eexists; split; [reflexivity|].
  cbn [total_evaluations ideas_reviewed meetings_checked type_counts].
  split; [|split].
  - rewrite (count_kinds_length (p :: es)).
    pose proof (value_counts_type_cells KAutomation (p :: es)) as HA. cbn [kind_name] in HA.
    rewrite HA. lia.
  - unfold value_counts. rewrite sum_counts_type_cells. reflexivity.
  - unfold saved in Hlen. rewrite length_map in Hlen. lia.
Qed.

(** X6: a run of the whole page.  Without a secrets file the key check
    raises [StreamlitSecretNotFoundError]; with secrets lacking the key the
    run shows the error and stops.  In both cases no request is sent, the
    store is unchanged and no feature tab or dashboard renders.  With the
    key, from a reachable session, the store ends as the clicked handler
    leaves it, and either the model call failed (the only exception such a
    run can raise, and the dashboard is not rendered) or the dashboard
    renders, without error, from the updated history, including the entry
    just saved. *)
Theorem page_run_reachable ev s (Hr : reachable s) :
  page_run NoSecretsFile ev s = mk_outcome (Err StreamlitSecretNotFoundError) s [] /\
  page_run SecretsWithoutKey ev s = mk_outcome (Ok PageStopped) s [] /\
  out_state (page_run SecretsWithKey ev s) = out_state (rerun ev s) /\
  out_log (page_run SecretsWithKey ev s) = out_log (rerun ev s) /\
  ((out_res (page_run SecretsWithKey ev s) = Err ServiceError /\
    out_res (rerun ev s) = Err ServiceError) \/
   exists d, out_res (page_run SecretsWithKey ev s) = Ok (PageRendered d) /\
             dashboard (history (out_state (rerun ev s))) = Ok d).
Proof.
  split; [reflexivity|]. split; [reflexivity|].
  destruct (reachable_saved _ (reach_rerun s ev Hr)) as [es Hes].
  destruct (dashboard_saved_ok es) as [d Hd].
  destruct (rerun_res ev s) as [Hok|Herr]; unfold page_run, bind;
    destruct (rerun ev s) as [r s1 l1]; simpl in *; subst r.
  - unfold render_dashboard. rewrite Hes, Hd. simpl.
    rewrite !app_nil_r. split; [reflexivity|split; [reflexivity|]].
    right. exists d. split; reflexivity.
  - split; [reflexivity|split; [reflexivity|]]. left. auto.
Qed.

(** X8: a feature click below the quota whose model call answers [r] saves
    one record at the end of the history: its result is [r], its time the
    run's instant, and its type, name, hours and savings those of the
    handler (the analysis's monthly hours and annual savings for the
    automation finder, the idea name or meeting topic with 0 hours and
    savings otherwise); the run succeeds and uses one unit of quota. *)
Theorem successful_rerun_saves ev s r
    (Hq : ai_calls s < MAX_CALLS) (Hrep : ev_reply ev = Some r) :
  match ev_action ev with
  | NoClick => rerun ev s = mk_outcome (Ok tt) s []
  | act =>
    out_res (rerun ev s) = Ok tt /\
    ai_calls (out_state (rerun ev s)) = ai_calls s + 1 /\
    exists rec,
      history (out_state (rerun ev s)) = history s ++ [rec] /\
      rec !! "result" = Some (VStr r) /\ rec !! "time" = Some (VTime (ev_now ev)) /\
      match act with
      | Analyze df rate cost =>
          rec !! "type" = Some (VStr "Automation") /\
          rec !! "name" = Some (VStr "Task Analysis") /\
          rec !! "hours" = Some (VInt (total_hours (analyze df rate cost))) /\
          rec !! "savings" = Some (VInt (annual_savings (analyze df rate cost)))
      | EvaluateIdea n =>
          rec !! "type" = Some (VStr "Idea") /\ rec !! "name" = Some (VStr n) /\
          rec !! "hours" = Some (VInt 0) /\ rec !! "savings" = Some (VInt 0)
      | EvaluateMeeting t =>
          rec !! "type" = Some (VStr "Meeting") /\ rec !! "name" = Some (VStr t) /\
          rec !! "hours" = Some (VInt 0) /\ rec !! "savings" = Some (VInt 0)
      | NoClick => False
      end
  end.
Proof.
  destruct ev as [act reply now]. simpl in Hrep |- *. subst reply.
  assert (E : (MAX_CALLS <=? ai_calls s) = false) by (apply Z.leb_gt; exact Hq).
  unfold rerun; simpl.
  destruct act as [df rate cost|n|t|]; [| | |reflexivity].
  - set (an := analyze df rate cost).
    assert (Hrun : analyze_handler df rate cost (Some r) now s =
              gated_outcome (Some r) now
                (fun r => automation_entry r (total_hours an) (annual_savings an)) s)
      by exact (gated_handler_eq (Some r) now _ s).
    rewrite Hrun. unfold gated_outcome. rewrite E. simpl.
    split; [reflexivity|split; [reflexivity|]].
    eexists; split; [reflexivity|]. repeat split; reflexivity.
  - unfold idea_handler. rewrite gated_handler_eq. unfold gated_outcome. rewrite E. simpl.
    split; [reflexivity|split; [reflexivity|]].
    eexists; split; [reflexivity|]. repeat split; reflexivity.
  - unfold meeting_handler. rewrite gated_handler_eq. unfold gated_outcome. rewrite E. simpl.
    split; [reflexivity|split; [reflexivity|]].
    eexists; split; [reflexivity|]. repeat split; reflexivity.
Qed.

(** X9: when the weekly hours of the task rows are non-negative and four
    times their total stays below 2^63 (the monthly hours do not overflow
    int64), the "Significant automation opportunity" warning shows exactly
    when the weekly hours add up to more than 10 (monthly hours above 40). *)
Theorem opportunity_warning_weekly df hourly_rate automation_cost
    (Hh : Forall (fun r => 0 <= hours_per_week r) df)
    (Hb : 4 * zsum (map hours_per_week df) < 2^63) :
  shows_opportunity_warning (analyze df hourly_rate automation_cost) = true <->
  10 < zsum (map hours_per_week df).
Proof.
  unfold shows_opportunity_warning, analyze. cbv zeta. cbn [total_hours].
  rewrite (monthly_sum_exact df Hh Hb), zsum_map_mul4, Z.ltb_lt. lia.
Qed.

(** X11: the guard of [save_history] is needed: on a non-empty history in
    which no record has a ["type"] key the dashboard raises
    [KeyError 'type']. *)
Theorem dashboard_missing_type (h : list record)
    (Hne : h <> []) (Hn : Forall (fun r : record => r !! "type" = None) h) :
  dashboard h = Err (KeyError "type").
Proof.
  assert (E : existsb (fun r : record => bool_decide (is_Some (r !! "type"))) h = false).
  { clear Hne. induction Hn as [|r t Hr _ IH]; simpl; [reflexivity|].
    rewrite bool_decide_eq_false_2 by (rewrite Hr; intros [? ?]; discriminate).
    exact IH. }
  destruct h as [|r t]; [congruence|].
  unfold dashboard. cbv beta iota. unfold column. rewrite E. reflexivity.
Qed.

(* ================================================================= *)
(** * Instances of the further properties *)


Lemma reachable_dashboard_witness :
  exists m, dashboard (history (repeat_rerun 9 ev_idea)) = Ok (Some m) /\
            total_evaluations m = 8%nat /\ ideas_reviewed m = 8%nat.
Proof.
  destruct (reachable_dashboard _ (reachable_repeat 9 ev_idea)
              ltac:(intros Hc; vm_compute in Hc; discriminate)) as (m & Hm & _).
  exists m. split; [exact Hm|].
  vm_compute in Hm. injection Hm as <-. split; reflexivity.
Defined.

Lemma page_run_reachable_witness :
  exists m, out_res (page_run SecretsWithKey ev_idea init_session) = Ok (PageRendered (Some m)) /\
            total_evaluations m = 1%nat.
Proof.
  destruct (page_run_reachable ev_idea init_session reach_init)
    as (_ & _ & _ & _ & [[H _]|(d & Hd & _)]).
  - vm_compute in H. discriminate H.
  - vm_compute in Hd. injection Hd as <-. eexists; split; reflexivity.
Defined.

Lemma successful_rerun_saves_witness :
  ai_calls init_session < MAX_CALLS /\
  exists rec, history (out_state (rerun ev_idea init_session)) = [rec] /\
              rec !! "name" = Some (VStr "Shared inbox bot").
Proof.
  pose proof (successful_rerun_saves ev_idea init_session "Go ahead" eq_refl eq_refl) as H.
  cbv beta iota delta [ev_action ev_idea] in H.
  destruct H as (_ & _ & rec & Hh & _ & _ & _ & Hn & _).
  split; [reflexivity|]. exists rec. split; [exact Hh|exact Hn].
Defined.

Lemma opportunity_warning_weekly_witness :
  Forall (fun r => 0 <= hours_per_week r) [mk_row "Report" 8 "Excel"; mk_row "Email copy" 5 "Outlook"] /\
  shows_opportunity_warning
    (analyze [mk_row "Report" 8 "Excel"; mk_row "Email copy" 5 "Outlook"] 25 2000) = true.
Proof.
  assert (Hh : Forall (fun r => 0 <= hours_per_week r)
                 [mk_row "Report" 8 "Excel"; mk_row "Email copy" 5 "Outlook"])
    by (repeat constructor; simpl; lia).
  split; [exact Hh|].
  apply (proj2 (opportunity_warning_weekly _ 25 2000 Hh ltac:(simpl; lia))). simpl. lia.
Defined.

Lemma dashboard_missing_type_witness :
  [<["name" := VStr "Weekly sync"]> (∅ : record)] <> [] /\
  dashboard [<["name" := VStr "Weekly sync"]> (∅ : record)] = Err (KeyError "type").
Proof.
  split; [discriminate|].
  apply dashboard_missing_type; [discriminate|repeat constructor].
Defined.
